(** * Provider configuration of the backend: [src/backend/app/settings.py]

    Shallow embedding of [init_settings] and the five provider initializers.
    The process environment is a function from keys to optional strings
    ([os.getenv]), the process-wide [llama_index] [Settings] object is a
    record of four fields, and the Python control flow (assignments to
    [Settings], [print], exceptions that leave earlier assignments in place)
    is a state-and-exception monad.  What the module takes from outside,
    Python's [int()] and [float()] and the validation done by the provider
    SDKs' client classes, is a parameter of every initializer: the theorems
    hold whatever these do. *)

From Stdlib Require Import String Ascii List ZArith NArith Bool Lia.
Import ListNotations.
Open Scope string_scope.
Set Warnings "-register-all".

(** ** Python values *)

(** Python floats are kept as the exact decimal value of the literal they
    were parsed from; the rounding to binary64 plays no role in what is
    proved here. *)
Inductive pyfloat : Type :=
| FFinite (neg : bool) (mant : N) (exp10 : Z)
| FInf (neg : bool)
| FNaN.

(** The Python objects that flow through this module.  An instance built
    by a call of class [Cls] with keyword arguments is the class name and
    the keyword arguments in the order the source passes them.  A callback
    returned by a factory carries an object identity [oid], so that two uses
    of the same callback can be told apart from two equal-looking ones. *)
Inductive pyobj : Type :=
| PyNone
| PyBool (b : bool)
| PyStr (s : string)
| PyInt (z : Z)
| PyFloat (f : pyfloat)
| PyInstance (cls : string) (kwargs : list (string * pyobj))
| PyCallback (oid : nat) (factory : string) (args : list pyobj).

(** [str(x)] for the values [print] and f-strings meet here. *)
Definition py_str_opt (o : option string) : string :=
  match o with Some s => s | None => "None" end.

Definition py_opt_str (o : option string) : pyobj :=
  match o with Some s => PyStr s | None => PyNone end.

(** [repr(s)] of a string, as it appears in the messages of [int()] and
    [float()]; exact for strings without quotes, backslashes or control
    characters. *)
Definition py_repr (s : string) : string := "'" ++ s ++ "'".

(** The exceptions the module raises. *)
Inductive exc : Type :=
| ValueError (msg : string)
| KeyError (key : pyobj).

(** ** What the module takes from the Python runtime and the SDKs *)

(** The outcome of [int(s)] or [float(s)] on a [str]: the value, or the
    message of the [ValueError] it raises (the only exception these raise on
    a [str]). *)
Inductive conv (A : Type) : Type :=
| Value (a : A)
| Invalid (msg : string).
Arguments Value {A} a.
Arguments Invalid {A} msg.

(** [py_int s] is [int(s)], [py_float s] is [float(s)] (CPython's, with its
    Unicode digits and white space and its limit on the number of digits),
    and [sdk_reject cls kwargs] is [None] when calling [cls] with the
    keyword arguments [kwargs] builds its object and [Some msg] when the class's validation raises
    [ValueError(msg)] (pydantic's [ValidationError] is a [ValueError]), for
    the client classes whose arguments come straight from [os.getenv]:
    [Ollama], [OllamaEmbedding], [OpenAI], [OpenAIEmbedding], [AzureOpenAI]
    and [AzureOpenAIEmbedding]. *)
Record runtime : Type := mkRuntime {
  py_int : string -> conv Z;
  py_float : string -> conv pyfloat;
  sdk_reject : string -> list (string * pyobj) -> option string
}.

(** *** The ASCII part of [int()] and [float()]

    A parser for the ASCII literals both accept, used to run examples. *)

(** ASCII characters [str.strip] and the number parsers treat as white
    space: 9-13, 28-31 and 32. *)
Definition is_space (c : ascii) : bool :=
  let n := nat_of_ascii c in
  ((9 <=? n)%nat && (n <=? 13)%nat) || ((28 <=? n)%nat && (n <=? 32)%nat).

Fixpoint drop_spaces (l : list ascii) : list ascii :=
  match l with
  | c :: r => if is_space c then drop_spaces r else l
  | [] => []
  end.

Definition py_strip (l : list ascii) : list ascii :=
  rev (drop_spaces (rev (drop_spaces l))).

Definition digit_of (c : ascii) : option N :=
  let n := nat_of_ascii c in
  if (48 <=? n)%nat && (n <=? 57)%nat then Some (N.of_nat (n - 48)) else None.

Definition is_digit (c : ascii) : bool :=
  match digit_of c with Some _ => true | None => false end.

(** The longest prefix of the form [digit (["_"] digit)*] (Python's
    [digitpart]), as its digits and the rest of the input. *)
Fixpoint span_digitpart (l : list ascii) : option (list N * list ascii) :=
  match l with
  | [] => None
  | c :: r =>
      match digit_of c with
      | None => None
      | Some d =>
          let continue_with (r' : option (list N * list ascii)) :=
            match r' with
            | Some (ds, rest) => Some (d :: ds, rest)
            | None => Some ([d], r)
            end in
          match r with
          | u :: ((c2 :: _) as r2) =>
              if Ascii.eqb u "_" && is_digit c2
              then continue_with (span_digitpart r2)
              else continue_with (span_digitpart r)
          | _ => continue_with (span_digitpart r)
          end
      end
  end.

Definition digits_value (ds : list N) : N :=
  fold_left (fun acc d => (10 * acc + d)%N) ds 0%N.

(** An optional leading sign; [true] for minus. *)
Definition take_sign (l : list ascii) : bool * list ascii :=
  match l with
  | c :: r =>
      if Ascii.eqb c "-" then (true, r)
      else if Ascii.eqb c "+" then (false, r)
      else (false, l)
  | [] => (false, l)
  end.

(** Base-10 integer literals in ASCII, with surrounding white space, a sign
    and single underscores between digits. *)
Definition ascii_int (s : string) : option Z :=
  let '(neg, body) := take_sign (py_strip (list_ascii_of_string s)) in
  match span_digitpart body with
  | Some (ds, []) =>
      let v := Z.of_N (digits_value ds) in
      Some (if neg then (- v)%Z else v)
  | _ => None
  end.

Definition lower (c : ascii) : ascii :=
  let n := nat_of_ascii c in
  if (65 <=? n)%nat && (n <=? 90)%nat then ascii_of_nat (n + 32) else c.

(** The optional exponent of a float literal, which must end the input. *)
Definition float_exponent (l : list ascii) : option Z :=
  match l with
  | [] => Some 0%Z
  | c :: r =>
      if Ascii.eqb (lower c) "e" then
        let '(eneg, r') := take_sign r in
        match span_digitpart r' with
        | Some (ds, []) =>
            let v := Z.of_N (digits_value ds) in
            Some (if eneg then (- v)%Z else v)
        | _ => None
        end
      else None
  end.

Definition mk_finite (neg : bool) (ip fp : list N) (e : Z) : pyfloat :=
  FFinite neg (digits_value (ip ++ fp)) (e - Z.of_nat (length fp))%Z.

(** Decimal float literals, [inf], [infinity] and [nan] in ASCII. *)
Definition ascii_float (s : string) : option pyfloat :=
  let '(neg, body) := take_sign (py_strip (list_ascii_of_string s)) in
  let word := string_of_list_ascii (map lower body) in
  if String.eqb word "inf" || String.eqb word "infinity" then Some (FInf neg)
  else if String.eqb word "nan" then Some FNaN
  else
    match span_digitpart body with
    | Some (ip, rest) =>
        match rest with
        | c :: r =>
            if Ascii.eqb c "." then
              match span_digitpart r with
              | Some (fp, rest2) =>
                  option_map (mk_finite neg ip fp) (float_exponent rest2)
              | None => option_map (mk_finite neg ip []) (float_exponent r)
              end
            else option_map (mk_finite neg ip []) (float_exponent rest)
        | [] => Some (mk_finite neg ip [] 0)
        end
    | None =>
        match body with
        | c :: r =>
            if Ascii.eqb c "." then
              match span_digitpart r with
              | Some (fp, rest2) =>
                  option_map (mk_finite neg [] fp) (float_exponent rest2)
              | None => None
              end
            else None
        | [] => None
        end
    end.

Example ascii_int_512 : ascii_int "512" = Some 512%Z. Proof. reflexivity. Qed.
Example ascii_int_abc : ascii_int "abc" = None. Proof. reflexivity. Qed.
Example ascii_int_ws : ascii_int " -1_000 " = Some (-1000)%Z. Proof. reflexivity. Qed.
Example ascii_int_us : ascii_int "1__0" = None. Proof. reflexivity. Qed.
Example ascii_float_07 : ascii_float "0.7" = Some (FFinite false 7 (-1)). Proof. reflexivity. Qed.
Example ascii_float_e : ascii_float "1.5e3" = Some (FFinite false 15 2). Proof. reflexivity. Qed.
Example ascii_float_dot : ascii_float ".5" = Some (FFinite false 5 (-1)). Proof. reflexivity. Qed.
Example ascii_float_inf : ascii_float "-Inf" = Some (FInf true). Proof. reflexivity. Qed.
Example ascii_float_bad : ascii_float "1.2.3" = None. Proof. reflexivity. Qed.

(** ** Shared state *)

(** The process-wide [llama_index.core.settings.Settings] fields this module
    writes; [None] for a field not assigned yet. *)
Record settings_t : Type := mkSettings {
  llm : option pyobj;
  embed_model : option pyobj;
  chunk_size : option Z;
  chunk_overlap : option Z
}.

Definition empty_settings : settings_t := mkSettings None None None None.

(** The interpreter state the module touches: the [Settings] object, the
    number of callbacks obtained from external factories so far (the only
    factory called is [get_bearer_token_provider]; the next callback gets
    this number as its identity), and the lines written by [print]. *)
Record state : Type := mkState {
  settings : settings_t;
  next_oid : nat;
  stdout : list string
}.

(** [os.getenv(key)]. *)
Definition environ : Type := string -> option string.

(** An environment given as a list of bindings, the first one winning. *)
Definition env_of (l : list (string * string)) : environ :=
  fun k => option_map snd (find (fun kv => String.eqb (fst kv) k) l).

(** ** State and exception monad

    A Python statement runs on the state and either returns normally or
    raises; in both cases the assignments it made so far stay in place. *)
Inductive result (A : Type) : Type :=
| Ok (a : A)
| Err (e : exc).
Arguments Ok {A} a.
Arguments Err {A} e.

Definition M (A : Type) : Type := state -> result A * state.

Definition ret {A} (a : A) : M A := fun s => (Ok a, s).

Definition bind {A B} (m : M A) (k : A -> M B) : M B :=
  fun s =>
    match m s with
    | (Ok a, s') => k a s'
    | (Err e, s') => (Err e, s')
    end.

Notation "x <- m ;; k" := (bind m (fun x => k))
  (at level 61, m at next level, right associativity).
Notation "m ;; k" := (bind m (fun _ : unit => k))
  (at level 61, right associativity).

Definition raise {A} (e : exc) : M A := fun s => (Err e, s).

(** [x] if it is [Some x], a raised exception otherwise. *)
Definition lift_opt {A} (o : option A) (e : exc) : M A :=
  match o with Some a => ret a | None => raise e end.

Definition print (line : string) : M unit :=
  fun s => (Ok tt, mkState (settings s) (next_oid s) (stdout s ++ [line])).

Definition update (f : settings_t -> settings_t) : M unit :=
  fun s => (Ok tt, mkState (f (settings s)) (next_oid s) (stdout s)).

(** [Settings.llm = v], [Settings.embed_model = v], ... *)
Definition set_llm (v : pyobj) : M unit :=
  update (fun st => mkSettings (Some v) (embed_model st) (chunk_size st) (chunk_overlap st)).
Definition set_embed_model (v : pyobj) : M unit :=
  update (fun st => mkSettings (llm st) (Some v) (chunk_size st) (chunk_overlap st)).
Definition set_chunk_size (v : Z) : M unit :=
  update (fun st => mkSettings (llm st) (embed_model st) (Some v) (chunk_overlap st)).
Definition set_chunk_overlap (v : Z) : M unit :=
  update (fun st => mkSettings (llm st) (embed_model st) (chunk_size st) (Some v)).

(** A fresh callback object returned by an external factory. *)
Definition new_callback (factory : string) (args : list pyobj) : M pyobj :=
  fun s => (Ok (PyCallback (next_oid s) factory args),
            mkState (settings s) (S (next_oid s)) (stdout s)).

(** [dict[key]] on a [Dict[str, str]] literal indexed with the result of
    [os.getenv]: a missing key, [None] included, raises [KeyError]. *)
Fixpoint assoc {A} (k : string) (l : list (string * A)) : option A :=
  match l with
  | [] => None
  | (k', v) :: r => if String.eqb k' k then Some v else assoc k r
  end.

Definition dict_getitem (d : list (string * string)) (key : option string) : M string :=
  match key with
  | Some k => lift_opt (assoc k d) (KeyError (PyStr k))
  | None => raise (KeyError PyNone)
  end.

(** ** Constants of the libraries the module imports *)

(** [llama_index.core.constants.DEFAULT_TEMPERATURE = 0.1]. *)
Definition DEFAULT_TEMPERATURE : pyfloat := FFinite false 1 (-1).

(** [llama_index.llms.ollama.base.DEFAULT_REQUEST_TIMEOUT = 30.0]. *)
Definition DEFAULT_REQUEST_TIMEOUT : pyfloat := FFinite false 300 (-1).

Definition AZURE_SCOPE : string := "https://cognitiveservices.azure.com/.default".

(** The model maps of [init_anthropic] and [init_gemini]. *)
Definition anthropic_model_map : list (string * string) :=
  [("claude-3-opus", "claude-3-opus-20240229");
   ("claude-3-sonnet", "claude-3-sonnet-20240229");
   ("claude-3-haiku", "claude-3-haiku-20240307");
   ("claude-2.1", "claude-2.1");
   ("claude-instant-1.2", "claude-instant-1.2")].

Definition anthropic_embed_model_map : list (string * string) :=
  [("all-MiniLM-L6-v2", "sentence-transformers/all-MiniLM-L6-v2");
   ("all-mpnet-base-v2", "sentence-transformers/all-mpnet-base-v2")].

Definition gemini_model_map : list (string * string) :=
  [("gemini-1.5-pro-latest", "models/gemini-1.5-pro-latest");
   ("gemini-pro", "models/gemini-pro");
   ("gemini-pro-vision", "models/gemini-pro-vision")].

Definition gemini_embed_model_map : list (string * string) :=
  [("embedding-001", "models/embedding-001");
   ("text-embedding-004", "models/text-embedding-004")].

Definition providers : list string :=
  ["openai"; "ollama"; "anthropic"; "gemini"; "azure-openai"].

(** For each provider tag, the classes of the generation client and of the
    embedding client its initializer constructs. *)
Definition provider_clients : list (string * (string * string)) :=
  [("openai", ("OpenAI", "OpenAIEmbedding"));
   ("ollama", ("Ollama", "OllamaEmbedding"));
   ("anthropic", ("Anthropic", "HuggingFaceEmbedding"));
   ("gemini", ("Gemini", "GeminiEmbedding"));
   ("azure-openai", ("AzureOpenAI", "AzureOpenAIEmbedding"))].

(** ** The initializers

    The module's imports are assumed to resolve.  [DefaultAzureCredential()]
    and [get_bearer_token_provider] build their objects without contacting
    the service.  The clients of [init_anthropic] and [init_gemini] receive
    only strings from the fixed maps and are taken to be built (their
    packages installed, their model downloads and services reachable); the
    other client classes validate their arguments through [sdk_reject]. *)
Section Initializers.

Variable rt : runtime.
Variable env : environ.

(** [int(s)] and [float(s)] on a string, raising [ValueError] where the
    runtime's conversion does. *)
Definition int_of_str (s : string) : M Z :=
  match py_int rt s with
  | Value z => ret z
  | Invalid msg => raise (ValueError msg)
  end.

Definition float_of_str (s : string) : M pyfloat :=
  match py_float rt s with
  | Value f => ret f
  | Invalid msg => raise (ValueError msg)
  end.

(** A call of one of the validating client classes with keyword arguments. *)
Definition construct (cls : string) (kws : list (string * pyobj)) : M pyobj :=
  match sdk_reject rt cls kws with
  | None => ret (PyInstance cls kws)
  | Some msg => raise (ValueError msg)
  end.

(** [os.getenv(key, default)] with a string default. *)
Definition getenv_or (key default : string) : string :=
  match env key with Some v => v | None => default end.

(** [float(os.getenv(key, default))] with a float default, which [float]
    returns unchanged. *)
Definition float_env (key : string) (default : pyfloat) : M pyfloat :=
  match env key with
  | Some v => float_of_str v
  | None => ret default
  end.

(** [int(v) if v is not None else None] for [v = os.getenv(key)]. *)
Definition optional_int_env (key : string) : M pyobj :=
  match env key with
  | Some v => z <- int_of_str v ;; ret (PyInt z)
  | None => ret PyNone
  end.

(** Lines 32-46. *)
Definition init_ollama : M unit :=
  let base_url :=
    match env "OLLAMA_BASE_URL" with
    | Some v => if String.eqb v "" then "http://127.0.0.1:11434" else v
    | None => "http://127.0.0.1:11434"
    end in
  request_timeout <- float_env "OLLAMA_REQUEST_TIMEOUT" DEFAULT_REQUEST_TIMEOUT ;;
  embed <- construct "OllamaEmbedding"
    [("base_url", PyStr base_url);
     ("model_name", py_opt_str (env "EMBEDDING_MODEL"))] ;;
  set_embed_model embed ;;
  client <- construct "Ollama"
    [("base_url", PyStr base_url);
     ("model", py_opt_str (env "MODEL"));
     ("request_timeout", PyFloat request_timeout)] ;;
  set_llm client.

(** Lines 49-67. *)
Definition init_openai : M unit :=
  let model := py_opt_str (env "MODEL") in
  temperature <- float_env "LLM_TEMPERATURE" DEFAULT_TEMPERATURE ;;
  max_tokens_v <- optional_int_env "LLM_MAX_TOKENS" ;;
  client <- construct "OpenAI"
    [("model", model);
     ("temperature", PyFloat temperature);
     ("max_tokens", max_tokens_v)] ;;
  set_llm client ;;
  dimensions_v <- optional_int_env "EMBEDDING_DIM" ;;
  embed <- construct "OpenAIEmbedding"
    [("model", py_opt_str (env "EMBEDDING_MODEL"));
     ("dimensions", dimensions_v)] ;;
  set_embed_model embed.

(** Lines 70-99. *)
Definition init_azure_openai : M unit :=
  let llm_deployment := py_opt_str (env "AZURE_DEPLOYMENT_NAME") in
  let embedding_deployment := py_opt_str (env "EMBEDDING_MODEL") in
  let azure_openai_endpoint := py_opt_str (env "AZURE_OPENAI_ENDPOINT") in
  let credential := PyInstance "DefaultAzureCredential" [] in
  token_provider <- new_callback "get_bearer_token_provider"
                      [credential; PyStr AZURE_SCOPE] ;;
  temperature <- float_env "LLM_TEMPERATURE" DEFAULT_TEMPERATURE ;;
  max_tokens_v <- optional_int_env "LLM_MAX_TOKENS" ;;
  client <- construct "AzureOpenAI"
    [("engine", llm_deployment);
     ("azure_endpoint", azure_openai_endpoint);
     ("azure_ad_token_provider", token_provider);
     ("use_azure_ad", PyBool true);
     ("temperature", PyFloat temperature);
     ("max_tokens", max_tokens_v)] ;;
  set_llm client ;;
  dimensions_v <- optional_int_env "EMBEDDING_DIM" ;;
  embed <- construct "AzureOpenAIEmbedding"
    [("azure_endpoint", azure_openai_endpoint);
     ("azure_deployment", embedding_deployment);
     ("azure_ad_token_provider", token_provider);
     ("use_azure_ad", PyBool true);
     ("dimensions", dimensions_v)] ;;
  set_embed_model embed.

(** Lines 102-122. *)
Definition init_anthropic : M unit :=
  model <- dict_getitem anthropic_model_map (env "MODEL") ;;
  set_llm (PyInstance "Anthropic" [("model", PyStr model)]) ;;
  embed <- dict_getitem anthropic_embed_model_map (env "EMBEDDING_MODEL") ;;
  set_embed_model (PyInstance "HuggingFaceEmbedding" [("model_name", PyStr embed)]).

(** Lines 125-143. *)
Definition init_gemini : M unit :=
  model <- dict_getitem gemini_model_map (env "MODEL") ;;
  set_llm (PyInstance "Gemini" [("model", PyStr model)]) ;;
  embed <- dict_getitem gemini_embed_model_map (env "EMBEDDING_MODEL") ;;
  set_embed_model (PyInstance "GeminiEmbedding" [("model_name", PyStr embed)]).

(** Lines 28-29 of [init_settings]. *)
Definition set_chunk_params : M unit :=
  chunk <- int_of_str (getenv_or "CHUNK_SIZE" "1024") ;;
  set_chunk_size chunk ;;
  overlap <- int_of_str (getenv_or "CHUNK_OVERLAP" "20") ;;
  set_chunk_overlap overlap.

(** [model_provider == tag] for [model_provider = os.getenv(...)]. *)
Definition is_tag (o : option string) (tag : string) : bool :=
  match o with Some v => String.eqb v tag | None => false end.

(** Lines 12-14: the two diagnostic [print] calls. *)
Definition print_diagnostics : M unit :=
  print (py_str_opt (env "AZURE_CONTAINER_REGISTRY_ENDPOINT")) ;;
  print (py_str_opt (env "MODEL_PROVIDER")).

(** Lines 15-27: the [match] statement on [model_provider]. *)
Definition dispatch (model_provider : option string) : M unit :=
  if is_tag model_provider "openai" then init_openai
  else if is_tag model_provider "ollama" then init_ollama
  else if is_tag model_provider "anthropic" then init_anthropic
  else if is_tag model_provider "gemini" then init_gemini
  else if is_tag model_provider "azure-openai" then init_azure_openai
  else raise (ValueError ("Invalid model provider: " ++ py_str_opt model_provider)).

(** Lines 11-29. *)
Definition init_settings : M unit :=
  print_diagnostics ;;
  dispatch (env "MODEL_PROVIDER") ;;
  set_chunk_params.

End Initializers.

Definition init_state : state := mkState empty_settings 0 [].

(** Keyword argument [k] of the object stored in a [Settings] field. *)
Definition kwarg (o : option pyobj) (k : string) : option pyobj :=
  match o with
  | Some (PyInstance _ kws) => assoc k kws
  | _ => None
  end.

(** The runtime the examples are run with: the ASCII parsers above, with
    CPython's messages, and client classes that reject a model, model name
    or engine given as [None] (as the pydantic fields of the real ones
    do). *)
Definition example_sdk_reject (cls : string) (kws : list (string * pyobj)) : option string :=
  if existsb (fun k => match assoc k kws with Some PyNone => true | _ => false end)
       ["model"; "model_name"; "engine"]
  then Some ("validation error for " ++ cls)
  else None.

Definition example_runtime : runtime :=
  mkRuntime
    (fun s => match ascii_int s with
              | Some z => Value z
              | None => Invalid ("invalid literal for int() with base 10: " ++ py_repr s)
              end)
    (fun s => match ascii_float s with
              | Some f => Value f
              | None => Invalid ("could not convert string to float: " ++ py_repr s)
              end)
    example_sdk_reject.

(** ** Proofs *)

Ltac run_unfold :=
  unfold init_settings, print_diagnostics, dispatch, set_chunk_params,
    init_openai, init_ollama, init_anthropic, init_gemini, init_azure_openai,
    float_env, optional_int_env, getenv_or, int_of_str, float_of_str, construct,
    dict_getitem, lift_opt, new_callback, set_llm, set_embed_model,
    set_chunk_size, set_chunk_overlap, update, print, raise, bind, ret in *.

Ltac clean_eqs :=
  repeat match goal with
  | H : (_, _) = (_, _) |- _ => injection H; clear H; intros; subst
  | H : Ok _ = Ok _ |- _ => injection H; clear H; intros; subst
  | H : Some _ = Some _ |- _ => injection H; clear H; intros; subst
  | H : Err _ = Err _ |- _ => injection H; clear H; intros; subst
  | H : Value _ = Value _ |- _ => injection H; clear H; intros; subst
  | H : Invalid _ = Invalid _ |- _ => injection H; clear H; intros; subst
  | H : Err _ = Ok _ |- _ => discriminate H
  | H : Ok _ = Err _ |- _ => discriminate H
  | H : Value _ = Invalid _ |- _ => discriminate H
  | H : Invalid _ = Value _ |- _ => discriminate H
  | H : Some _ = None |- _ => discriminate H
  | H : None = Some _ |- _ => discriminate H
  | H : true = false |- _ => discriminate H
  | H : false = true |- _ => discriminate H
  end.

(** Case analysis on the innermost [match] the run of the program meets, in
    the goal or in a hypothesis, with its equation kept, until none is
    left. *)
Ltac split_matches :=
  repeat (cbn -[py_int py_float sdk_reject String.eqb kwarg assoc] in *; clean_eqs;
    match goal with
    | H : context [match ?x with _ => _ end] |- _ =>
        lazymatch x with
        | context [match _ with _ => _ end] => fail
        | _ =>
            match goal with
            | E : x = _ |- _ => rewrite E in H
            | _ => destruct x eqn:?
            end
        end
    | |- context [match ?x with _ => _ end] =>
        lazymatch x with
        | context [match _ with _ => _ end] => fail
        | _ =>
            match goal with
            | E : x = _ |- _ => rewrite E
            | _ => destruct x eqn:?
            end
        end
    end);
  cbn -[py_int py_float sdk_reject String.eqb kwarg assoc] in *; clean_eqs.


Lemma init_settings_unfold : forall rt env s,
  init_settings rt env s =
  match dispatch rt env (env "MODEL_PROVIDER") (snd (print_diagnostics env s)) with
  | (Ok _, s1) => set_chunk_params rt env s1
  | (Err e, s1) => (Err e, s1)
  end.
Proof. intros rt env s. reflexivity. Qed.

Lemma not_in_providers_dispatch : forall rt env p,
  ~ In p providers ->
  dispatch rt env (Some p) = raise (ValueError ("Invalid model provider: " ++ p)).
Proof.
  intros rt env p Hp. unfold dispatch, is_tag.
  destruct (String.eqb_spec p "openai"); [subst; exfalso; apply Hp; simpl; tauto|].
  destruct (String.eqb_spec p "ollama"); [subst; exfalso; apply Hp; simpl; tauto|].
  destruct (String.eqb_spec p "anthropic"); [subst; exfalso; apply Hp; simpl; tauto|].
  destruct (String.eqb_spec p "gemini"); [subst; exfalso; apply Hp; simpl; tauto|].
  destruct (String.eqb_spec p "azure-openai"); [subst; exfalso; apply Hp; simpl; tauto|].
  reflexivity.
Qed.

(** C1.  When [MODEL_PROVIDER] is unset or not one of the five tags,
    [init_settings] raises [ValueError("Invalid model provider: <value>")]
    (the spec's [ConfigurationError]) naming the value ([None] when unset);
    for each of the five tags it runs the matching initializer after the
    diagnostic prints and then sets the chunk parameters. *)
Theorem init_settings_dispatches_on_provider : forall rt env s,
  ((forall p, env "MODEL_PROVIDER" = Some p -> ~ In p providers) ->
   exists s', init_settings rt env s =
     (Err (ValueError ("Invalid model provider: "
                        ++ py_str_opt (env "MODEL_PROVIDER"))), s')) /\
  (env "MODEL_PROVIDER" = Some "openai" ->
   init_settings rt env s =
     (init_openai rt env ;; set_chunk_params rt env) (snd (print_diagnostics env s))) /\
  (env "MODEL_PROVIDER" = Some "ollama" ->
   init_settings rt env s =
     (init_ollama rt env ;; set_chunk_params rt env) (snd (print_diagnostics env s))) /\
  (env "MODEL_PROVIDER" = Some "anthropic" ->
   init_settings rt env s =
     (init_anthropic env ;; set_chunk_params rt env) (snd (print_diagnostics env s))) /\
  (env "MODEL_PROVIDER" = Some "gemini" ->
   init_settings rt env s =
     (init_gemini env ;; set_chunk_params rt env) (snd (print_diagnostics env s))) /\
  (env "MODEL_PROVIDER" = Some "azure-openai" ->
   init_settings rt env s =
     (init_azure_openai rt env ;; set_chunk_params rt env) (snd (print_diagnostics env s))).
Proof.
  intros rt env s.
  repeat split; intros H; rewrite init_settings_unfold;
    try (rewrite H; reflexivity).
  destruct (env "MODEL_PROVIDER") as [p|] eqn:Hp.
  - rewrite not_in_providers_dispatch by (apply H; reflexivity).
    eexists; reflexivity.
  - eexists; reflexivity.
Qed.

Lemma init_settings_dispatches_on_provider_witness :
  (forall p, env_of [("MODEL_PROVIDER", "mistral")] "MODEL_PROVIDER" = Some p ->
             ~ In p providers) /\
  exists s', init_settings example_runtime (env_of [("MODEL_PROVIDER", "mistral")]) init_state =
    (Err (ValueError "Invalid model provider: mistral"), s').
Proof.
  assert (Hn : forall p, env_of [("MODEL_PROVIDER", "mistral")] "MODEL_PROVIDER" = Some p ->
             ~ In p providers).
  { intros p Hp. vm_compute in Hp. inversion Hp. subst.
    vm_compute. intuition discriminate. }
  split; [exact Hn|].
  exact (proj1 (init_settings_dispatches_on_provider example_runtime
                  (env_of [("MODEL_PROVIDER", "mistral")]) init_state) Hn).
Defined.

Lemma dispatch_cases : forall rt env p,
  (p = Some "openai" /\ dispatch rt env p = init_openai rt env) \/
  (p = Some "ollama" /\ dispatch rt env p = init_ollama rt env) \/
  (p = Some "anthropic" /\ dispatch rt env p = init_anthropic env) \/
  (p = Some "gemini" /\ dispatch rt env p = init_gemini env) \/
  (p = Some "azure-openai" /\ dispatch rt env p = init_azure_openai rt env) \/
  ((forall q, p = Some q -> ~ In q providers) /\
   dispatch rt env p = raise (ValueError ("Invalid model provider: " ++ py_str_opt p))).
Proof.
  intros rt env [q|].
  - unfold dispatch, is_tag.
    destruct (String.eqb_spec q "openai"); [subst; tauto|].
    destruct (String.eqb_spec q "ollama"); [subst; tauto|].
    destruct (String.eqb_spec q "anthropic"); [subst; tauto|].
    destruct (String.eqb_spec q "gemini"); [subst; tauto|].
    destruct (String.eqb_spec q "azure-openai"); [subst; tauto|].
    right; right; right; right; right. split; [|reflexivity].
    intros q' Hq; injection Hq as <-. simpl. intuition congruence.
  - right; right; right; right; right. split; [discriminate | reflexivity].
Qed.

Ltac dispatch_cases rt env p :=
  destruct (dispatch_cases rt env p)
    as [[? Hdisp]|[[? Hdisp]|[[? Hdisp]|[[? Hdisp]|[[? Hdisp]|[? Hdisp]]]]]];
  rewrite Hdisp in *; clear Hdisp.

Lemma dispatch_ok_sets_clients : forall rt env p s s1,
  dispatch rt env p s = (Ok tt, s1) ->
  (exists l, llm (settings s1) = Some l) /\ (exists e, embed_model (settings s1) = Some e).
Proof.
  intros rt env p s s1 H.
  dispatch_cases rt env p; run_unfold; split_matches; split; eexists; reflexivity.
Qed.

Lemma dispatch_ok_valid : forall rt env p s s1,
  dispatch rt env p s = (Ok tt, s1) -> exists q, p = Some q /\ In q providers.
Proof.
  intros rt env p s s1 H.
  destruct (dispatch_cases rt env p)
    as [[-> _]|[[-> _]|[[-> _]|[[-> _]|[[-> _]|[_ Hd]]]]]];
    try (eexists; split; [reflexivity | simpl; tauto]).
  rewrite Hd in H. discriminate.
Qed.

Lemma set_chunk_params_keeps_clients : forall rt env s r s',
  set_chunk_params rt env s = (r, s') ->
  llm (settings s') = llm (settings s) /\
  embed_model (settings s') = embed_model (settings s).
Proof.
  intros rt env s r s' H. run_unfold.
  split_matches; auto.
Qed.

Lemma print_diagnostics_settings : forall env s,
  print_diagnostics env s = (Ok tt, snd (print_diagnostics env s)) /\
  settings (snd (print_diagnostics env s)) = settings s /\
  next_oid (snd (print_diagnostics env s)) = next_oid s.
Proof. intros env s. repeat split. Qed.

(** The configuration [ENV_ANTHROPIC_UNMAPPED] names a valid provider with a
    model that is not in the map. *)
Definition env_anthropic_unmapped : environ :=
  env_of [("MODEL_PROVIDER", "anthropic"); ("MODEL", "gpt-5");
          ("EMBEDDING_MODEL", "all-MiniLM-L6-v2")].

Definition env_openai_basic : environ :=
  env_of [("MODEL_PROVIDER", "openai"); ("MODEL", "gpt-4o");
          ("EMBEDDING_MODEL", "text-embedding-3-small")].

(** C5 (as stated: every valid provider value gives a successful run with
    both handles) fails: [anthropic] with [MODEL="gpt-5"] raises
    [KeyError], whatever the runtime. *)
Lemma valid_provider_always_succeeds_refuted :
  ~ (forall rt env s,
       (exists p, env "MODEL_PROVIDER" = Some p /\ In p providers) ->
       exists s', init_settings rt env s = (Ok tt, s') /\
                  llm (settings s') <> None /\ embed_model (settings s') <> None).
Proof.
  intros H.
  destruct (H example_runtime env_anthropic_unmapped init_state) as [s' [Hrun _]].
  - exists "anthropic". split; [reflexivity | simpl; tauto].
  - vm_compute in Hrun. discriminate.
Qed.

Lemma init_settings_ok_clients : forall rt env s s',
  init_settings rt env s = (Ok tt, s') ->
  (exists p, env "MODEL_PROVIDER" = Some p /\ In p providers) /\
  llm (settings s') <> None /\ embed_model (settings s') <> None.
Proof.
  intros rt env s s' H. rewrite init_settings_unfold in H.
  destruct (dispatch rt env (env "MODEL_PROVIDER") (snd (print_diagnostics env s)))
    as [[[]|e] s1] eqn:Hd; [|discriminate].
  destruct (dispatch_ok_sets_clients _ _ _ _ _ Hd) as [[l Hl] [e He]].
  destruct (set_chunk_params_keeps_clients _ _ _ _ _ H) as [H1 H2].
  split; [exact (dispatch_ok_valid _ _ _ _ _ Hd)|].
  rewrite H1, H2, Hl, He. split; discriminate.
Qed.

(** C5, amended.  Whenever [init_settings] returns normally, [MODEL_PROVIDER]
    was one of the five tags and both the generation client and the
    embedding client of [Settings] are set (non-null); a valid tag alone
    does not guarantee a normal return. *)
Theorem init_settings_ok_sets_both_clients : forall rt env s s',
  init_settings rt env s = (Ok tt, s') ->
  (exists p, env "MODEL_PROVIDER" = Some p /\ In p providers) /\
  llm (settings s') <> None /\ embed_model (settings s') <> None.
Proof. exact init_settings_ok_clients. Qed.

Lemma init_settings_ok_sets_both_clients_witness :
  init_settings example_runtime env_openai_basic init_state
    = (Ok tt, snd (init_settings example_runtime env_openai_basic init_state)) /\
  llm (settings (snd (init_settings example_runtime env_openai_basic init_state))) <> None.
Proof.
  assert (Hrun : init_settings example_runtime env_openai_basic init_state
    = (Ok tt, snd (init_settings example_runtime env_openai_basic init_state)))
    by (vm_compute; reflexivity).
  split; [exact Hrun|].
  exact (proj1 (proj2 (init_settings_ok_sets_both_clients _ _ _ _ Hrun))).
Defined.

Lemma chunk_params_run : forall rt env s1 cs co,
  py_int rt (getenv_or env "CHUNK_SIZE" "1024") = Value cs ->
  py_int rt (getenv_or env "CHUNK_OVERLAP" "20") = Value co ->
  set_chunk_params rt env s1 =
    (Ok tt, mkState (mkSettings (llm (settings s1)) (embed_model (settings s1))
                                (Some cs) (Some co))
                    (next_oid s1) (stdout s1)).
Proof.
  intros rt env s1 cs co Hcs Hco.
  unfold set_chunk_params, int_of_str, bind. rewrite Hcs, Hco.
  reflexivity.
Qed.

Lemma chunk_size_fails : forall rt env s1 v msg,
  env "CHUNK_SIZE" = Some v -> py_int rt v = Invalid msg ->
  set_chunk_params rt env s1 = (Err (ValueError msg), s1).
Proof.
  intros rt env s1 v msg Hv Hp. unfold set_chunk_params, int_of_str, getenv_or, bind.
  rewrite Hv, Hp. reflexivity.
Qed.

Lemma chunk_overlap_fails : forall rt env s1 v msg,
  env "CHUNK_OVERLAP" = Some v -> py_int rt v = Invalid msg ->
  exists msg' s', set_chunk_params rt env s1 = (Err (ValueError msg'), s').
Proof.
  intros rt env s1 v msg Hv Hp. unfold set_chunk_params, int_of_str, bind.
  destruct (py_int rt (getenv_or env "CHUNK_SIZE" "1024")); unfold getenv_or;
    rewrite ?Hv, ?Hp; eexists; eexists; reflexivity.
Qed.

Lemma set_chunk_params_ok : forall rt env s1 s',
  set_chunk_params rt env s1 = (Ok tt, s') ->
  exists cs co,
    py_int rt (getenv_or env "CHUNK_SIZE" "1024") = Value cs /\
    py_int rt (getenv_or env "CHUNK_OVERLAP" "20") = Value co /\
    chunk_size (settings s') = Some cs /\ chunk_overlap (settings s') = Some co.
Proof.
  intros rt env s1 s' H.
  unfold set_chunk_params, int_of_str, bind in H.
  destruct (py_int rt (getenv_or env "CHUNK_SIZE" "1024")) as [cs|] eqn:Hcs; [|discriminate].
  destruct (py_int rt (getenv_or env "CHUNK_OVERLAP" "20")) as [co|] eqn:Hco; [|discriminate].
  injection H as <-. exists cs, co. auto.
Qed.

(** C2.  After the provider step returns normally, [init_settings] sets the
    chunk parameters to [int(os.getenv("CHUNK_SIZE", "1024"))] and
    [int(os.getenv("CHUNK_OVERLAP", "20"))]: a value [int()] rejects makes
    [init_settings] raise the [ValueError] of [int()]; a normal return sets
    both to what [int()] returned.  As [int("1024") = 1024],
    [int("20") = 20] and [int("512") = 512], unset gives 1024 and 20 and
    ["512"] gives 512; as [int("abc")] raises, ["abc"] makes
    [init_settings] raise [ValueError]. *)
Theorem init_settings_chunk_params : forall rt env s s1,
  dispatch rt env (env "MODEL_PROVIDER") (snd (print_diagnostics env s)) = (Ok tt, s1) ->
  (py_int rt "1024" = Value 1024%Z -> py_int rt "20" = Value 20%Z ->
   env "CHUNK_SIZE" = None -> env "CHUNK_OVERLAP" = None ->
   exists s', init_settings rt env s = (Ok tt, s') /\
     chunk_size (settings s') = Some 1024%Z /\ chunk_overlap (settings s') = Some 20%Z) /\
  (py_int rt "512" = Value 512%Z -> py_int rt "20" = Value 20%Z ->
   env "CHUNK_SIZE" = Some "512" -> env "CHUNK_OVERLAP" = None ->
   exists s', init_settings rt env s = (Ok tt, s') /\
     chunk_size (settings s') = Some 512%Z /\ chunk_overlap (settings s') = Some 20%Z) /\
  (forall msg, py_int rt "abc" = Invalid msg -> env "CHUNK_SIZE" = Some "abc" ->
   exists s', init_settings rt env s = (Err (ValueError msg), s')) /\
  (forall v msg, env "CHUNK_SIZE" = Some v -> py_int rt v = Invalid msg ->
   exists s', init_settings rt env s = (Err (ValueError msg), s')) /\
  (forall v msg, env "CHUNK_OVERLAP" = Some v -> py_int rt v = Invalid msg ->
   exists msg' s', init_settings rt env s = (Err (ValueError msg'), s')) /\
  (forall s', init_settings rt env s = (Ok tt, s') ->
   exists cs co,
     py_int rt (getenv_or env "CHUNK_SIZE" "1024") = Value cs /\
     py_int rt (getenv_or env "CHUNK_OVERLAP" "20") = Value co /\
     chunk_size (settings s') = Some cs /\ chunk_overlap (settings s') = Some co).
Proof.
  intros rt env s s1 Hd.
  assert (Hrun : init_settings rt env s = set_chunk_params rt env s1)
    by (rewrite init_settings_unfold, Hd; reflexivity).
  rewrite Hrun.
  assert (Hv : forall k d, env k = None -> getenv_or env k d = d)
    by (intros k d Hk; unfold getenv_or; rewrite Hk; reflexivity).
  split; [|split; [|split; [|split; [|split]]]].
  - intros H1024 H20 Hcs Hco. eexists. split.
    + apply (chunk_params_run rt env s1 1024%Z 20%Z); rewrite Hv by assumption; assumption.
    + split; reflexivity.
  - intros H512 H20 Hcs Hco. eexists. split.
    + apply (chunk_params_run rt env s1 512%Z 20%Z);
        [unfold getenv_or; rewrite Hcs|rewrite Hv by assumption];
        assumption.
    + split; reflexivity.
  - intros msg Habc Hcs. exists s1. exact (chunk_size_fails rt env s1 "abc" msg Hcs Habc).
  - intros v msg Hcs Hp. exists s1. exact (chunk_size_fails rt env s1 v msg Hcs Hp).
  - intros v msg Hco Hp. exact (chunk_overlap_fails rt env s1 v msg Hco Hp).
  - intros s' Hok. exact (set_chunk_params_ok _ _ _ _ Hok).
Qed.

Lemma init_settings_chunk_params_witness :
  exists s', init_settings example_runtime env_openai_basic init_state = (Ok tt, s') /\
    chunk_size (settings s') = Some 1024%Z /\ chunk_overlap (settings s') = Some 20%Z.
Proof.
  exact (proj1 (init_settings_chunk_params example_runtime env_openai_basic init_state
                  (snd (dispatch example_runtime env_openai_basic (Some "openai")
                          (snd (print_diagnostics env_openai_basic init_state))))
                  (eq_refl _))
           eq_refl eq_refl eq_refl eq_refl).
Defined.

(** C3.  [init_anthropic] resolves [MODEL] through a fixed map of five
    entries and [EMBEDDING_MODEL] through a fixed map of two, with distinct
    keys; [MODEL="claude-3-haiku"] gives the generation client the model
    ["claude-3-haiku-20240307"]; a [MODEL] outside the map (unset, or e.g.
    ["gpt-5"]) makes [init_settings] raise [KeyError] (the spec's fatal
    [ConfigurationError]) before any client is built. *)
Theorem anthropic_model_resolution :
  length anthropic_model_map = 5%nat /\ NoDup (map fst anthropic_model_map) /\
  length anthropic_embed_model_map = 2%nat /\
  NoDup (map fst anthropic_embed_model_map) /\
  assoc "claude-3-haiku" anthropic_model_map = Some "claude-3-haiku-20240307" /\
  (forall env s, env "MODEL" = Some "claude-3-haiku" ->
     llm (settings (snd (init_anthropic env s))) =
       Some (PyInstance "Anthropic" [("model", PyStr "claude-3-haiku-20240307")])) /\
  (forall rt env s, env "MODEL_PROVIDER" = Some "anthropic" ->
     (forall k, env "MODEL" = Some k -> assoc k anthropic_model_map = None) ->
     init_settings rt env s =
       (Err (KeyError (py_opt_str (env "MODEL"))), snd (print_diagnostics env s))).
Proof.
  split; [reflexivity|].
  split; [repeat constructor; simpl; intuition discriminate|].
  split; [reflexivity|].
  split; [repeat constructor; simpl; intuition discriminate|].
  split; [reflexivity|].
  split.
  - intros env s Hm. unfold init_anthropic, dict_getitem, lift_opt, bind.
    rewrite Hm.
    destruct (env "EMBEDDING_MODEL") as [k|];
      [destruct (assoc k anthropic_embed_model_map)|]; reflexivity.
  - intros rt env s Hp Hm. rewrite init_settings_unfold, Hp.
    unfold dispatch, is_tag; simpl.
    unfold init_anthropic, dict_getitem, lift_opt, bind.
    destruct (env "MODEL") as [k|].
    + rewrite (Hm k eq_refl). reflexivity.
    + reflexivity.
Qed.

Definition env_anthropic_haiku : environ :=
  env_of [("MODEL_PROVIDER", "anthropic"); ("MODEL", "claude-3-haiku");
          ("EMBEDDING_MODEL", "all-MiniLM-L6-v2")].

Lemma anthropic_model_resolution_witness :
  llm (settings (snd (init_anthropic env_anthropic_haiku init_state))) =
    Some (PyInstance "Anthropic" [("model", PyStr "claude-3-haiku-20240307")]) /\
  init_settings example_runtime env_anthropic_unmapped init_state =
    (Err (KeyError (PyStr "gpt-5")),
     snd (print_diagnostics env_anthropic_unmapped init_state)).
Proof.
  destruct anthropic_model_resolution as (_ & _ & _ & _ & _ & Hhaiku & Hgpt).
  split.
  - apply Hhaiku. reflexivity.
  - apply (Hgpt example_runtime env_anthropic_unmapped init_state eq_refl).
    intros k Hk. vm_compute in Hk. injection Hk as <-. reflexivity.
Defined.

(** C10.  An unknown [MODEL_PROVIDER] raises before any assignment: the
    settings are exactly those before the call.  Once the provider step has
    returned normally, the only remaining failure is a [ValueError] from
    parsing [CHUNK_SIZE] or [CHUNK_OVERLAP], and it leaves the clients the
    provider step committed in place. *)
Theorem init_settings_failure_points : forall rt env s,
  ((forall p, env "MODEL_PROVIDER" = Some p -> ~ In p providers) ->
   exists e s', init_settings rt env s = (Err e, s') /\ settings s' = settings s) /\
  (forall s1, dispatch rt env (env "MODEL_PROVIDER") (snd (print_diagnostics env s)) = (Ok tt, s1) ->
   forall e s', init_settings rt env s = (Err e, s') ->
   (exists msg, e = ValueError msg) /\
   llm (settings s') = llm (settings s1) /\
   embed_model (settings s') = embed_model (settings s1) /\
   llm (settings s1) <> None /\ embed_model (settings s1) <> None).
Proof.
  intros rt env s. split.
  - intros Hbad. rewrite init_settings_unfold.
    destruct (dispatch_cases rt env (env "MODEL_PROVIDER"))
      as [[Hp _]|[[Hp _]|[[Hp _]|[[Hp _]|[[Hp _]|[_ Hd]]]]]];
      try (exfalso; apply (Hbad _ Hp); simpl; tauto).
    rewrite Hd. eexists; eexists; split; reflexivity.
  - intros s1 Hd e s' Hrun.
    rewrite init_settings_unfold, Hd in Hrun.
    destruct (dispatch_ok_sets_clients _ _ _ _ _ Hd) as [[l Hl] [m Hm]].
    destruct (set_chunk_params_keeps_clients _ _ _ _ _ Hrun) as [H1 H2].
    rewrite Hl, Hm in *.
    split; [|split; [exact H1|split; [exact H2|split; discriminate]]].
    unfold set_chunk_params, int_of_str, bind in Hrun.
    destruct (py_int rt (getenv_or env "CHUNK_SIZE" "1024"));
      [destruct (py_int rt (getenv_or env "CHUNK_OVERLAP" "20"))|];
      simpl in Hrun; inversion Hrun; subst; eauto.
Qed.

Definition env_unknown_provider : environ :=
  env_of [("MODEL_PROVIDER", "mistral")].

Definition env_openai_bad_chunk : environ :=
  env_of [("MODEL_PROVIDER", "openai"); ("MODEL", "gpt-4o");
          ("EMBEDDING_MODEL", "text-embedding-3-small"); ("CHUNK_SIZE", "abc")].

Lemma init_settings_failure_points_witness :
  (exists e s', init_settings example_runtime env_unknown_provider init_state = (Err e, s') /\
                settings s' = settings init_state) /\
  (exists msg, fst (init_settings example_runtime env_openai_bad_chunk init_state)
                 = Err (ValueError msg)) /\
  llm (settings (snd (init_settings example_runtime env_openai_bad_chunk init_state))) <> None.
Proof.
  split.
  - apply (proj1 (init_settings_failure_points example_runtime env_unknown_provider init_state)).
    intros p Hp. vm_compute in Hp. injection Hp as <-. simpl. intuition discriminate.
  - pose (s1 := snd (dispatch example_runtime env_openai_bad_chunk (Some "openai")
                       (snd (print_diagnostics env_openai_bad_chunk init_state)))).
    pose (r := init_settings example_runtime env_openai_bad_chunk init_state).
    destruct (proj2 (init_settings_failure_points example_runtime env_openai_bad_chunk
                       init_state)
                s1 (eq_refl _) (ValueError "invalid literal for int() with base 10: 'abc'")
                (snd r) (eq_refl _))
      as [Hmsg [Hl [_ [Hnn _]]]].
    split; [exists "invalid literal for int() with base 10: 'abc'"; reflexivity|].
    unfold r in Hl. rewrite Hl. exact Hnn.
Defined.

(** C4 (as stated: an absent [LLM_TEMPERATURE] propagates as unset) fails:
    with [LLM_TEMPERATURE] unset, [init_openai] passes the keyword argument
    [temperature=DEFAULT_TEMPERATURE], a float, not [None]. *)
Lemma absent_temperature_unset_refuted :
  ~ (forall rt env s s',
       env "LLM_TEMPERATURE" = None ->
       init_openai rt env s = (Ok tt, s') ->
       kwarg (llm (settings s')) "temperature" = Some PyNone).
Proof.
  intros H.
  specialize (H example_runtime env_openai_basic init_state
                (snd (init_openai example_runtime env_openai_basic init_state))
                eq_refl eq_refl).
  vm_compute in H. discriminate.
Qed.

(** Rewrite every read [e1 k] into [e2 k] where [H] says the two
    environments agree on [k]. *)
Ltac agree_on_keys e1 H :=
  repeat match goal with
  | |- context [e1 ?k] => rewrite (H k) by (simpl; intuition discriminate)
  end.

(** C4, amended.  Only [init_openai] and [init_azure_openai] read
    [LLM_MAX_TOKENS], [EMBEDDING_DIM] and [LLM_TEMPERATURE]; the other
    initializers do not depend on them.  In those two, [LLM_MAX_TOKENS] and
    [EMBEDDING_DIM] are passed to [int()] only when present and become [None]
    (unset) when absent; [LLM_TEMPERATURE] is always passed: [float()] of its
    value when present, the library default [DEFAULT_TEMPERATURE] (0.1)
    when absent.  A present value that [int()] or [float()] rejects makes
    the initializer raise [ValueError] (the rejection of an unparsable
    [LLM_TEMPERATURE] is the first thing that can fail, so it is that
    error).  For openai, [EMBEDDING_DIM] unset gives [dimensions=None] and,
    as [int("1536") = 1536], [EMBEDDING_DIM="1536"] gives
    [dimensions=1536]. *)
Theorem optional_numeric_fields : forall rt,
  (forall init, init = init_openai rt \/ init = init_azure_openai rt ->
   forall env s,
   (forall s', init env s = (Ok tt, s') ->
    (env "LLM_MAX_TOKENS" = None -> kwarg (llm (settings s')) "max_tokens" = Some PyNone) /\
    (env "EMBEDDING_DIM" = None -> kwarg (embed_model (settings s')) "dimensions" = Some PyNone) /\
    (env "LLM_TEMPERATURE" = None ->
     kwarg (llm (settings s')) "temperature" = Some (PyFloat DEFAULT_TEMPERATURE)) /\
    (forall v, env "LLM_MAX_TOKENS" = Some v ->
     exists z, py_int rt v = Value z /\ kwarg (llm (settings s')) "max_tokens" = Some (PyInt z)) /\
    (forall v, env "EMBEDDING_DIM" = Some v ->
     exists z, py_int rt v = Value z /\
               kwarg (embed_model (settings s')) "dimensions" = Some (PyInt z)) /\
    (forall v, env "LLM_TEMPERATURE" = Some v ->
     exists f, py_float rt v = Value f /\
               kwarg (llm (settings s')) "temperature" = Some (PyFloat f))) /\
   (forall v msg, env "LLM_MAX_TOKENS" = Some v -> py_int rt v = Invalid msg ->
    exists msg' s', init env s = (Err (ValueError msg'), s')) /\
   (forall v msg, env "EMBEDDING_DIM" = Some v -> py_int rt v = Invalid msg ->
    exists msg' s', init env s = (Err (ValueError msg'), s')) /\
   (forall v msg, env "LLM_TEMPERATURE" = Some v -> py_float rt v = Invalid msg ->
    exists s', init env s = (Err (ValueError msg), s'))) /\
  (forall init, init = init_ollama rt \/ init = init_anthropic \/ init = init_gemini ->
   forall e1 e2,
   (forall k, ~ In k ["LLM_MAX_TOKENS"; "EMBEDDING_DIM"; "LLM_TEMPERATURE"] -> e1 k = e2 k) ->
   init e1 = init e2) /\
  (forall env s s', env "EMBEDDING_DIM" = None -> init_openai rt env s = (Ok tt, s') ->
   kwarg (embed_model (settings s')) "dimensions" = Some PyNone) /\
  (py_int rt "1536" = Value 1536%Z ->
   forall env s s', env "EMBEDDING_DIM" = Some "1536" -> init_openai rt env s = (Ok tt, s') ->
   kwarg (embed_model (settings s')) "dimensions" = Some (PyInt 1536)).
Proof.
  intros rt.
  assert (Hread : forall init, init = init_openai rt \/ init = init_azure_openai rt ->
   forall env s s', init env s = (Ok tt, s') ->
    (env "LLM_MAX_TOKENS" = None -> kwarg (llm (settings s')) "max_tokens" = Some PyNone) /\
    (env "EMBEDDING_DIM" = None -> kwarg (embed_model (settings s')) "dimensions" = Some PyNone) /\
    (env "LLM_TEMPERATURE" = None ->
     kwarg (llm (settings s')) "temperature" = Some (PyFloat DEFAULT_TEMPERATURE)) /\
    (forall v, env "LLM_MAX_TOKENS" = Some v ->
     exists z, py_int rt v = Value z /\ kwarg (llm (settings s')) "max_tokens" = Some (PyInt z)) /\
    (forall v, env "EMBEDDING_DIM" = Some v ->
     exists z, py_int rt v = Value z /\
               kwarg (embed_model (settings s')) "dimensions" = Some (PyInt z)) /\
    (forall v, env "LLM_TEMPERATURE" = Some v ->
     exists f, py_float rt v = Value f /\
               kwarg (llm (settings s')) "temperature" = Some (PyFloat f))).
  { intros init Hinit env s s' H.
    destruct Hinit; subst; run_unfold; split_matches;
      repeat split; intros; clean_eqs; unfold kwarg; simpl; try congruence;
      (eexists; split; [eassumption | reflexivity]). }
  assert (Hfail : forall init, init = init_openai rt \/ init = init_azure_openai rt ->
   forall env s,
   (forall v msg, env "LLM_MAX_TOKENS" = Some v -> py_int rt v = Invalid msg ->
    exists msg' s', init env s = (Err (ValueError msg'), s')) /\
   (forall v msg, env "EMBEDDING_DIM" = Some v -> py_int rt v = Invalid msg ->
    exists msg' s', init env s = (Err (ValueError msg'), s')) /\
   (forall v msg, env "LLM_TEMPERATURE" = Some v -> py_float rt v = Invalid msg ->
    exists s', init env s = (Err (ValueError msg), s'))).
  { intros init Hinit env s.
    destruct Hinit; subst; repeat split; intros v msg Hv Hp; run_unfold;
      rewrite Hv; split_matches; try congruence; eauto. }
  split; [|split; [|split]].
  - intros init Hinit env s. split; [exact (Hread init Hinit env s) | exact (Hfail init Hinit env s)].
  - intros init Hinit e1 e2 H.
    destruct Hinit as [-> | [-> | ->]]; run_unfold; agree_on_keys e1 H; reflexivity.
  - intros env s s' Hd Hrun.
    exact (proj1 (proj2 (Hread (init_openai rt) (or_introl eq_refl) env s s' Hrun)) Hd).
  - intros H1536 env s s' Hd Hrun.
    destruct (proj1 (proj2 (proj2 (proj2 (proj2
      (Hread (init_openai rt) (or_introl eq_refl) env s s' Hrun))))) "1536" Hd)
      as [z [Hz Hk]].
    rewrite H1536 in Hz. injection Hz as <-. exact Hk.
Qed.

Definition env_openai_dim : environ :=
  env_of [("MODEL_PROVIDER", "openai"); ("MODEL", "gpt-4o");
          ("EMBEDDING_MODEL", "text-embedding-3-small"); ("EMBEDDING_DIM", "1536")].

Definition env_openai_bad_dim : environ :=
  env_of [("MODEL_PROVIDER", "openai"); ("MODEL", "gpt-4o");
          ("EMBEDDING_MODEL", "text-embedding-3-small"); ("EMBEDDING_DIM", "abc")].

Lemma optional_numeric_fields_witness :
  kwarg (embed_model (settings (snd (init_openai example_runtime env_openai_dim init_state))))
    "dimensions" = Some (PyInt 1536) /\
  exists msg s', init_openai example_runtime env_openai_bad_dim init_state
                   = (Err (ValueError msg), s').
Proof.
  destruct (optional_numeric_fields example_runtime) as (Hmain & _ & _ & Hdim).
  split.
  - apply (Hdim eq_refl env_openai_dim init_state); [reflexivity | vm_compute; reflexivity].
  - apply (proj1 (proj2 (proj2 (Hmain (init_openai example_runtime) (or_introl eq_refl)
                                  env_openai_bad_dim init_state))) "abc"
             "invalid literal for int() with base 10: 'abc'");
      reflexivity.
Defined.

Lemma init_settings_ok_depends_on_oid_only : forall rt env s t s',
  init_settings rt env s = (Ok tt, s') ->
  next_oid t = next_oid s ->
  exists t', init_settings rt env t = (Ok tt, t') /\ settings t' = settings s'.
Proof.
  intros rt env [ss n o] [st m ot] s' H Hoid. cbn in Hoid. subst m.
  rewrite init_settings_unfold in *.
  dispatch_cases rt env (env "MODEL_PROVIDER");
    run_unfold; split_matches; eexists; split; reflexivity.
Qed.

Lemma init_settings_ok_sets_all : forall rt env s s',
  init_settings rt env s = (Ok tt, s') ->
  llm (settings s') <> None /\ embed_model (settings s') <> None /\
  chunk_size (settings s') <> None /\ chunk_overlap (settings s') <> None.
Proof.
  intros rt env s s' H.
  destruct (init_settings_ok_clients _ _ _ _ H) as [_ [Hl He]].
  rewrite init_settings_unfold in H.
  destruct (dispatch rt env (env "MODEL_PROVIDER") (snd (print_diagnostics env s)))
    as [[[]|e] s1]; [|discriminate].
  destruct (set_chunk_params_ok _ _ _ _ H) as (cs & co & _ & _ & Hcs & Hco).
  rewrite Hcs, Hco. repeat split; auto; discriminate.
Qed.

(** C6.  Calling [init_settings] a second time, after a first call with any
    outcome, leaves in [Settings] exactly what the second call would leave
    if the first had never assigned anything: its four fields are all
    assigned by the second call, and nothing of the first call's settings
    survives.  (The only state the first call passes on is the count of
    token provider callbacks obtained and the printed lines.) *)
Theorem init_settings_last_write_wins : forall rt e1 e2 s0 r1 s1 s2,
  init_settings rt e1 s0 = (r1, s1) ->
  init_settings rt e2 s1 = (Ok tt, s2) ->
  (exists t, init_settings rt e2 (mkState empty_settings (next_oid s1) (stdout s1)) = (Ok tt, t) /\
             settings t = settings s2) /\
  llm (settings s2) <> None /\ embed_model (settings s2) <> None /\
  chunk_size (settings s2) <> None /\ chunk_overlap (settings s2) <> None.
Proof.
  intros rt e1 e2 s0 r1 s1 s2 _ H2. split.
  - apply (init_settings_ok_depends_on_oid_only rt e2 s1); [exact H2 | reflexivity].
  - exact (init_settings_ok_sets_all _ _ _ _ H2).
Qed.

Definition env_ollama_basic : environ :=
  env_of [("MODEL_PROVIDER", "ollama"); ("MODEL", "llama3");
          ("EMBEDDING_MODEL", "nomic-embed-text"); ("CHUNK_SIZE", "512")].

Lemma init_settings_last_write_wins_witness :
  exists t, init_settings example_runtime env_ollama_basic
              (mkState empty_settings
                 (next_oid (snd (init_settings example_runtime env_openai_basic init_state)))
                 (stdout (snd (init_settings example_runtime env_openai_basic init_state))))
              = (Ok tt, t) /\
            settings t = settings (snd (init_settings example_runtime env_ollama_basic
                                          (snd (init_settings example_runtime env_openai_basic
                                                  init_state)))).
Proof.
  exact (proj1 (init_settings_last_write_wins example_runtime env_openai_basic env_ollama_basic
                  init_state
                  (fst (init_settings example_runtime env_openai_basic init_state))
                  (snd (init_settings example_runtime env_openai_basic init_state))
                  (snd (init_settings example_runtime env_ollama_basic
                          (snd (init_settings example_runtime env_openai_basic init_state))))
                  (surjective_pairing _) (eq_refl _))).
Defined.

(** C7.  [init_ollama] takes the base URL from [OLLAMA_BASE_URL], falling
    back to ["http://127.0.0.1:11434"] when it is unset (Python's [or] also
    falls back on the empty string), and on a normal return both clients
    were given that same URL; the generation client was given
    [float(OLLAMA_REQUEST_TIMEOUT)] as request timeout, or the library's
    [DEFAULT_REQUEST_TIMEOUT] when the variable is unset.  A timeout that
    [float()] rejects raises its [ValueError] before any client is built or
    assigned (the state is unchanged). *)
Theorem ollama_base_url_and_timeout : forall rt env s,
  (forall s', init_ollama rt env s = (Ok tt, s') ->
   exists u,
     kwarg (llm (settings s')) "base_url" = Some (PyStr u) /\
     kwarg (embed_model (settings s')) "base_url" = Some (PyStr u) /\
     (env "OLLAMA_BASE_URL" = None -> u = "http://127.0.0.1:11434")) /\
  (forall s', init_ollama rt env s = (Ok tt, s') ->
   env "OLLAMA_REQUEST_TIMEOUT" = None ->
   kwarg (llm (settings s')) "request_timeout" = Some (PyFloat DEFAULT_REQUEST_TIMEOUT)) /\
  (forall s' v, init_ollama rt env s = (Ok tt, s') ->
   env "OLLAMA_REQUEST_TIMEOUT" = Some v ->
   exists f, py_float rt v = Value f /\
             kwarg (llm (settings s')) "request_timeout" = Some (PyFloat f)) /\
  (forall v msg, env "OLLAMA_REQUEST_TIMEOUT" = Some v -> py_float rt v = Invalid msg ->
   init_ollama rt env s = (Err (ValueError msg), s)).
Proof.
  intros rt env s. split; [|split; [|split]].
  - intros s' H. run_unfold. split_matches; unfold kwarg; simpl;
      (eexists; split; [reflexivity | split; [reflexivity | intros; congruence]]).
  - intros s' H Ht. run_unfold. rewrite Ht in H. split_matches;
      unfold kwarg; simpl; reflexivity.
  - intros s' v H Hv. run_unfold. rewrite Hv in H. split_matches;
      unfold kwarg; simpl; (eexists; split; reflexivity).
  - intros v msg Hv Hp. run_unfold. rewrite Hv, Hp. reflexivity.
Qed.

Lemma ollama_base_url_and_timeout_witness :
  kwarg (llm (settings (snd (init_ollama example_runtime env_ollama_basic init_state))))
    "request_timeout" = Some (PyFloat DEFAULT_REQUEST_TIMEOUT).
Proof.
  apply (proj1 (proj2 (ollama_base_url_and_timeout example_runtime env_ollama_basic init_state))).
  - vm_compute; reflexivity.
  - reflexivity.
Defined.

(** C8.  [init_azure_openai] calls
    [get_bearer_token_provider(DefaultAzureCredential(), scope)] exactly
    once, with the cognitive-services scope, whatever the outcome (the count
    of callbacks obtained goes up by one), and on a normal return both
    clients hold that same callback, with the generation client given
    [AZURE_DEPLOYMENT_NAME] as engine, [AZURE_OPENAI_ENDPOINT], the
    temperature and the max tokens, and the embedding client given the same
    endpoint, [EMBEDDING_MODEL] as deployment and the embedding
    dimension. *)
Theorem azure_single_token_provider : forall rt env s,
  next_oid (snd (init_azure_openai rt env s)) = S (next_oid s) /\
  (forall s', init_azure_openai rt env s = (Ok tt, s') ->
   let tp := PyCallback (next_oid s) "get_bearer_token_provider"
               [PyInstance "DefaultAzureCredential" [];
                PyStr "https://cognitiveservices.azure.com/.default"] in
   kwarg (llm (settings s')) "azure_ad_token_provider" = Some tp /\
   kwarg (embed_model (settings s')) "azure_ad_token_provider" = Some tp /\
   kwarg (llm (settings s')) "engine" = Some (py_opt_str (env "AZURE_DEPLOYMENT_NAME")) /\
   kwarg (llm (settings s')) "azure_endpoint" = Some (py_opt_str (env "AZURE_OPENAI_ENDPOINT")) /\
   kwarg (embed_model (settings s')) "azure_endpoint" =
     Some (py_opt_str (env "AZURE_OPENAI_ENDPOINT")) /\
   kwarg (embed_model (settings s')) "azure_deployment" = Some (py_opt_str (env "EMBEDDING_MODEL")) /\
   (exists t, kwarg (llm (settings s')) "temperature" = Some (PyFloat t) /\
      (env "LLM_TEMPERATURE" = None -> t = DEFAULT_TEMPERATURE) /\
      (forall v, env "LLM_TEMPERATURE" = Some v -> py_float rt v = Value t)) /\
   (exists m, kwarg (llm (settings s')) "max_tokens" = Some m /\
      (env "LLM_MAX_TOKENS" = None -> m = PyNone) /\
      (forall v, env "LLM_MAX_TOKENS" = Some v -> exists z, py_int rt v = Value z /\ m = PyInt z)) /\
   (exists d, kwarg (embed_model (settings s')) "dimensions" = Some d /\
      (env "EMBEDDING_DIM" = None -> d = PyNone) /\
      (forall v, env "EMBEDDING_DIM" = Some v -> exists z, py_int rt v = Value z /\ d = PyInt z))).
Proof.
  intros rt env s. split.
  - run_unfold. split_matches; reflexivity.
  - intros s' H. cbv zeta. run_unfold. split_matches; unfold kwarg; simpl;
      repeat split; try reflexivity;
      (eexists; split; [reflexivity | split; intros; clean_eqs; try congruence; eauto]).
Qed.

Definition env_azure : environ :=
  env_of [("MODEL_PROVIDER", "azure-openai"); ("AZURE_DEPLOYMENT_NAME", "gpt-4o");
          ("AZURE_OPENAI_ENDPOINT", "https://example.openai.azure.com");
          ("EMBEDDING_MODEL", "text-embedding-ada-002"); ("EMBEDDING_DIM", "1536")].

Lemma azure_single_token_provider_witness :
  kwarg (llm (settings (snd (init_azure_openai example_runtime env_azure init_state))))
    "azure_ad_token_provider"
  = kwarg (embed_model (settings (snd (init_azure_openai example_runtime env_azure init_state))))
      "azure_ad_token_provider".
Proof.
  destruct (proj2 (azure_single_token_provider example_runtime env_azure init_state)
              (snd (init_azure_openai example_runtime env_azure init_state))
              ltac:(vm_compute; reflexivity))
    as [Hl [He _]].
  rewrite Hl, He. reflexivity.
Defined.

(** What a run leaves for the rest of the application: its outcome, the
    [Settings] fields and the count of token provider callbacks obtained
    (not the printed lines). *)
Definition observable (r : result unit * state) : result unit * settings_t * nat :=
  (fst r, settings (snd r), next_oid (snd r)).

Lemma after_diagnostics_observable : forall rt env p s t,
  settings s = settings t -> next_oid s = next_oid t ->
  observable ((dispatch rt env p ;; set_chunk_params rt env) s) =
  observable ((dispatch rt env p ;; set_chunk_params rt env) t).
Proof.
  intros rt env p [ss ns os] [st nt ot] Hs Hn. simpl in Hs, Hn. subst.
  unfold observable.
  dispatch_cases rt env p; run_unfold; split_matches; reflexivity.
Qed.

Lemma dispatch_agree : forall rt e1 e2,
  (forall k, k <> "AZURE_CONTAINER_REGISTRY_ENDPOINT" -> e1 k = e2 k) ->
  forall p, dispatch rt e1 p = dispatch rt e2 p.
Proof.
  intros rt e1 e2 H p.
  unfold dispatch, init_openai, init_ollama, init_anthropic, init_gemini,
    init_azure_openai, float_env, optional_int_env.
  agree_on_keys e1 H. reflexivity.
Qed.

Lemma set_chunk_params_agree : forall rt e1 e2,
  (forall k, k <> "AZURE_CONTAINER_REGISTRY_ENDPOINT" -> e1 k = e2 k) ->
  set_chunk_params rt e1 = set_chunk_params rt e2.
Proof.
  intros rt e1 e2 H. unfold set_chunk_params, getenv_or.
  agree_on_keys e1 H. reflexivity.
Qed.

(** C9.  [AZURE_CONTAINER_REGISTRY_ENDPOINT] is only printed: two
    environments that differ at most in that variable give the same outcome,
    the same [Settings] and the same callbacks. *)
Theorem registry_endpoint_irrelevant : forall rt e1 e2 s,
  (forall k, k <> "AZURE_CONTAINER_REGISTRY_ENDPOINT" -> e1 k = e2 k) ->
  observable (init_settings rt e1 s) = observable (init_settings rt e2 s).
Proof.
  intros rt e1 e2 s H.
  change (init_settings rt e1 s) with
    ((dispatch rt e1 (e1 "MODEL_PROVIDER") ;; set_chunk_params rt e1)
       (snd (print_diagnostics e1 s))).
  change (init_settings rt e2 s) with
    ((dispatch rt e2 (e2 "MODEL_PROVIDER") ;; set_chunk_params rt e2)
       (snd (print_diagnostics e2 s))).
  rewrite (dispatch_agree rt e1 e2 H), (set_chunk_params_agree rt e1 e2 H).
  rewrite (H "MODEL_PROVIDER") by discriminate.
  apply after_diagnostics_observable; reflexivity.
Qed.

Definition env_azure_acr : environ :=
  env_of [("AZURE_CONTAINER_REGISTRY_ENDPOINT", "myregistry.azurecr.io");
          ("MODEL_PROVIDER", "azure-openai"); ("AZURE_DEPLOYMENT_NAME", "gpt-4o");
          ("AZURE_OPENAI_ENDPOINT", "https://example.openai.azure.com");
          ("EMBEDDING_MODEL", "text-embedding-ada-002"); ("EMBEDDING_DIM", "1536")].

Lemma registry_endpoint_irrelevant_witness :
  observable (init_settings example_runtime env_azure_acr init_state) =
  observable (init_settings example_runtime env_azure init_state).
Proof.
  apply registry_endpoint_irrelevant.
  intros k Hk. unfold env_azure_acr, env_azure, env_of. cbn -[String.eqb].
  destruct (String.eqb_spec "AZURE_CONTAINER_REGISTRY_ENDPOINT" k); [congruence|].
  reflexivity.
Defined.

(** ** Further properties of the initializers *)

(** X1.  On a normal return, [init_anthropic] and [init_gemini] give the
    generation client the map's value for [MODEL] and the embedding client
    the map's value for [EMBEDDING_MODEL]; the Gemini maps have three and two
    entries with distinct keys. *)
Theorem map_initializers_resolve_both_models : forall env s s',
  length gemini_model_map = 3%nat /\ NoDup (map fst gemini_model_map) /\
  length gemini_embed_model_map = 2%nat /\ NoDup (map fst gemini_embed_model_map) /\
  (init_anthropic env s = (Ok tt, s') ->
   exists k m, env "MODEL" = Some k /\ assoc k anthropic_model_map = Some m /\
     llm (settings s') = Some (PyInstance "Anthropic" [("model", PyStr m)])) /\
  (init_anthropic env s = (Ok tt, s') ->
   exists k m, env "EMBEDDING_MODEL" = Some k /\ assoc k anthropic_embed_model_map = Some m /\
     embed_model (settings s') = Some (PyInstance "HuggingFaceEmbedding" [("model_name", PyStr m)])) /\
  (init_gemini env s = (Ok tt, s') ->
   exists k m, env "MODEL" = Some k /\ assoc k gemini_model_map = Some m /\
     llm (settings s') = Some (PyInstance "Gemini" [("model", PyStr m)])) /\
  (init_gemini env s = (Ok tt, s') ->
   exists k m, env "EMBEDDING_MODEL" = Some k /\ assoc k gemini_embed_model_map = Some m /\
     embed_model (settings s') = Some (PyInstance "GeminiEmbedding" [("model_name", PyStr m)])).
Proof.
  intros env s s'.
  split; [reflexivity|].
  split; [repeat constructor; simpl; intuition discriminate|].
  split; [reflexivity|].
  split; [repeat constructor; simpl; intuition discriminate|].
  repeat split; intros H; run_unfold; split_matches;
    (do 2 eexists; split; [reflexivity | split; [eassumption | reflexivity]]).
Qed.

Definition env_gemini : environ :=
  env_of [("MODEL_PROVIDER", "gemini"); ("MODEL", "gemini-pro");
          ("EMBEDDING_MODEL", "text-embedding-004")].

Lemma map_initializers_resolve_both_models_witness :
  exists k m, env_gemini "MODEL" = Some k /\ assoc k gemini_model_map = Some m /\
    llm (settings (snd (init_gemini env_gemini init_state))) =
      Some (PyInstance "Gemini" [("model", PyStr m)]).
Proof.
  apply (proj1 (proj2 (proj2 (proj2 (proj2 (proj2 (proj2
    (map_initializers_resolve_both_models env_gemini init_state
       (snd (init_gemini env_gemini init_state)))))))))).
  vm_compute. reflexivity.
Defined.

(** X2.  In [init_anthropic] and [init_gemini], a [MODEL] outside the map
    raises [KeyError] before any assignment (the settings are unchanged);
    a mapped [MODEL] with an [EMBEDDING_MODEL] outside its map raises
    [KeyError] after [Settings.llm] has been replaced, so the new generation
    client sits beside the previous embedding client. *)
Theorem map_initializers_partial_commit : forall env s,
  ((forall k, env "MODEL" = Some k -> assoc k anthropic_model_map = None) ->
   init_anthropic env s = (Err (KeyError (py_opt_str (env "MODEL"))), s)) /\
  ((forall k, env "MODEL" = Some k -> assoc k gemini_model_map = None) ->
   init_gemini env s = (Err (KeyError (py_opt_str (env "MODEL"))), s)) /\
  (forall k m, env "MODEL" = Some k -> assoc k anthropic_model_map = Some m ->
   (forall k', env "EMBEDDING_MODEL" = Some k' -> assoc k' anthropic_embed_model_map = None) ->
   exists s', init_anthropic env s = (Err (KeyError (py_opt_str (env "EMBEDDING_MODEL"))), s') /\
     llm (settings s') = Some (PyInstance "Anthropic" [("model", PyStr m)]) /\
     embed_model (settings s') = embed_model (settings s) /\
     chunk_size (settings s') = chunk_size (settings s) /\
     chunk_overlap (settings s') = chunk_overlap (settings s)) /\
  (forall k m, env "MODEL" = Some k -> assoc k gemini_model_map = Some m ->
   (forall k', env "EMBEDDING_MODEL" = Some k' -> assoc k' gemini_embed_model_map = None) ->
   exists s', init_gemini env s = (Err (KeyError (py_opt_str (env "EMBEDDING_MODEL"))), s') /\
     llm (settings s') = Some (PyInstance "Gemini" [("model", PyStr m)]) /\
     embed_model (settings s') = embed_model (settings s) /\
     chunk_size (settings s') = chunk_size (settings s) /\
     chunk_overlap (settings s') = chunk_overlap (settings s)).
Proof.
  intros env s. split; [|split; [|split]].
  - intros Hm. unfold init_anthropic, dict_getitem, lift_opt, bind.
    destruct (env "MODEL") as [k|]; [rewrite (Hm k eq_refl)|]; reflexivity.
  - intros Hm. unfold init_gemini, dict_getitem, lift_opt, bind.
    destruct (env "MODEL") as [k|]; [rewrite (Hm k eq_refl)|]; reflexivity.
  - intros k m Hk Hm He. unfold init_anthropic, dict_getitem, lift_opt, bind.
    rewrite Hk, Hm.
    destruct (env "EMBEDDING_MODEL") as [k'|];
      [rewrite (He k' eq_refl)|]; eexists; repeat split.
  - intros k m Hk Hm He. unfold init_gemini, dict_getitem, lift_opt, bind.
    rewrite Hk, Hm.
    destruct (env "EMBEDDING_MODEL") as [k'|];
      [rewrite (He k' eq_refl)|]; eexists; repeat split.
Qed.

Definition env_gemini_bad_embed : environ :=
  env_of [("MODEL_PROVIDER", "gemini"); ("MODEL", "gemini-pro");
          ("EMBEDDING_MODEL", "all-MiniLM-L6-v2")].

Lemma map_initializers_partial_commit_witness :
  exists s', init_gemini env_gemini_bad_embed init_state =
               (Err (KeyError (PyStr "all-MiniLM-L6-v2")), s') /\
    llm (settings s') = Some (PyInstance "Gemini" [("model", PyStr "models/gemini-pro")]) /\
    embed_model (settings s') = None /\
    chunk_size (settings s') = None /\ chunk_overlap (settings s') = None.
Proof.
  apply (proj2 (proj2 (proj2 (map_initializers_partial_commit env_gemini_bad_embed init_state)))
           "gemini-pro").
  - reflexivity.
  - reflexivity.
  - intros k' Hk. vm_compute in Hk. injection Hk as <-. reflexivity.
Defined.


(** X3.  In [init_openai] and [init_azure_openai], a [LLM_TEMPERATURE] that
    [float()] rejects raises that [ValueError], and a [LLM_MAX_TOKENS] that
    [int()] rejects raises a [ValueError], both before any assignment (the
    settings are unchanged).  A failing run never assigns
    [Settings.embed_model] nor the chunk parameters: either the settings are
    unchanged, or only [Settings.llm] has been replaced by the new client of
    the provider's class (a later failure: [EMBEDDING_DIM] or the embedding
    client's validation). *)
Theorem openai_initializers_partial_commit : forall rt init cls,
  (init, cls) = (init_openai rt, "OpenAI") \/
  (init, cls) = (init_azure_openai rt, "AzureOpenAI") ->
  forall env s,
  (forall v msg, env "LLM_TEMPERATURE" = Some v -> py_float rt v = Invalid msg ->
   exists s', init env s = (Err (ValueError msg), s') /\ settings s' = settings s) /\
  (forall v msg, env "LLM_MAX_TOKENS" = Some v -> py_int rt v = Invalid msg ->
   exists msg' s', init env s = (Err (ValueError msg'), s') /\ settings s' = settings s) /\
  (forall e s', init env s = (Err e, s') ->
   settings s' = settings s \/
   ((exists kws, llm (settings s') = Some (PyInstance cls kws)) /\
    embed_model (settings s') = embed_model (settings s) /\
    chunk_size (settings s') = chunk_size (settings s) /\
    chunk_overlap (settings s') = chunk_overlap (settings s))).
Proof.
  intros rt init cls Hinit env s.
  destruct Hinit as [Hi|Hi]; injection Hi as -> ->;
    (split; [intros v msg Hv Hp | split; [intros v msg Hv Hp | intros e s' H]]);
    run_unfold; try rewrite Hv; split_matches; try congruence;
    first [ eexists; split; reflexivity
          | do 2 eexists; split; reflexivity
          | left; reflexivity
          | right; repeat split; eexists; reflexivity ].
Qed.

Definition env_azure_bad_dim : environ :=
  env_of [("MODEL_PROVIDER", "azure-openai"); ("AZURE_DEPLOYMENT_NAME", "gpt-4o");
          ("AZURE_OPENAI_ENDPOINT", "https://example.openai.azure.com");
          ("EMBEDDING_MODEL", "text-embedding-ada-002"); ("EMBEDDING_DIM", "12x")].

Lemma openai_initializers_partial_commit_witness :
  settings (snd (init_azure_openai example_runtime env_azure_bad_dim init_state))
    = settings init_state \/
  ((exists kws, llm (settings (snd (init_azure_openai example_runtime env_azure_bad_dim
                                       init_state)))
                  = Some (PyInstance "AzureOpenAI" kws)) /\
   embed_model (settings (snd (init_azure_openai example_runtime env_azure_bad_dim init_state)))
     = embed_model (settings init_state) /\
   chunk_size (settings (snd (init_azure_openai example_runtime env_azure_bad_dim init_state)))
     = chunk_size (settings init_state) /\
   chunk_overlap (settings (snd (init_azure_openai example_runtime env_azure_bad_dim init_state)))
     = chunk_overlap (settings init_state)).
Proof.
  apply (proj2 (proj2 (openai_initializers_partial_commit example_runtime
                         (init_azure_openai example_runtime) "AzureOpenAI"
                         (or_intror eq_refl) env_azure_bad_dim init_state))
           (match fst (init_azure_openai example_runtime env_azure_bad_dim init_state) with
            | Err e => e | Ok _ => KeyError PyNone end)).
  vm_compute. reflexivity.
Defined.

(** X6.  [init_anthropic] and [init_gemini] return normally exactly when
    both [MODEL] and [EMBEDDING_MODEL] are set to keys of their maps. *)
Theorem map_initializers_succeed_iff : forall env s,
  ((exists s', init_anthropic env s = (Ok tt, s')) <->
   (exists k m, env "MODEL" = Some k /\ assoc k anthropic_model_map = Some m) /\
   (exists k m, env "EMBEDDING_MODEL" = Some k /\ assoc k anthropic_embed_model_map = Some m)) /\
  ((exists s', init_gemini env s = (Ok tt, s')) <->
   (exists k m, env "MODEL" = Some k /\ assoc k gemini_model_map = Some m) /\
   (exists k m, env "EMBEDDING_MODEL" = Some k /\ assoc k gemini_embed_model_map = Some m)).
Proof.
  intros env s. split; split.
  1, 3: intros [s' H]; run_unfold; split_matches; split; eauto.
  all: intros [(k & m & Hk & Hm) (k' & m' & Hk' & Hm')];
    run_unfold; rewrite Hk, Hm, Hk', Hm'; eexists; reflexivity.
Qed.


Lemma print_diagnostics_state : forall env s,
  snd (print_diagnostics env s) =
  mkState (settings s) (next_oid s)
    (stdout s ++ [py_str_opt (env "AZURE_CONTAINER_REGISTRY_ENDPOINT");
                  py_str_opt (env "MODEL_PROVIDER")]).
Proof.
  intros env [ss n o]. unfold print_diagnostics, print, bind. cbn [snd settings next_oid stdout].
  rewrite <- app_assoc. reflexivity.
Qed.

(** The provider step prints nothing and does not read the printed lines. *)
Lemma dispatch_stdout : forall rt env p s l,
  dispatch rt env p (mkState (settings s) (next_oid s) l) =
  (fst (dispatch rt env p s),
   mkState (settings (snd (dispatch rt env p s))) (next_oid (snd (dispatch rt env p s))) l).
Proof.
  intros rt env p [ss n o] l. dispatch_cases rt env p; run_unfold; split_matches; reflexivity.
Qed.

Lemma dispatch_keeps_chunks : forall rt env p s,
  chunk_size (settings (snd (dispatch rt env p s))) = chunk_size (settings s) /\
  chunk_overlap (settings (snd (dispatch rt env p s))) = chunk_overlap (settings s).
Proof.
  intros rt env p s. dispatch_cases rt env p; run_unfold; split_matches; auto.
Qed.

(** X7.  [init_settings] returns normally exactly when the provider step
    does and both [int(os.getenv("CHUNK_SIZE", "1024"))] and
    [int(os.getenv("CHUNK_OVERLAP", "20"))] return a value. *)
Theorem init_settings_succeeds_iff : forall rt env s,
  (exists s', init_settings rt env s = (Ok tt, s')) <->
  ((exists s1, dispatch rt env (env "MODEL_PROVIDER") s = (Ok tt, s1)) /\
   (exists cs, py_int rt (getenv_or env "CHUNK_SIZE" "1024") = Value cs) /\
   (exists co, py_int rt (getenv_or env "CHUNK_OVERLAP" "20") = Value co)).
Proof.
  intros rt env s. rewrite init_settings_unfold, print_diagnostics_state, dispatch_stdout.
  destruct (dispatch rt env (env "MODEL_PROVIDER") s) as [[[]|e] s1]; cbn [fst snd].
  - unfold set_chunk_params, int_of_str, set_chunk_size, set_chunk_overlap,
      update, raise, bind, ret.
    destruct (py_int rt (getenv_or env "CHUNK_SIZE" "1024")) as [cs|m1];
      [destruct (py_int rt (getenv_or env "CHUNK_OVERLAP" "20")) as [co|m2]|];
      (split; [intros [s' H] | intros (_ & [cs' H1] & [co' H2])]);
      solve [ discriminate
            | split; [|split]; eexists; reflexivity
            | eexists; reflexivity ].
  - split; [intros [s' H] | intros [[s' H] _]]; discriminate H.
Qed.

(** X8.  [init_settings] raises [KeyError] only for the [anthropic] and
    [gemini] providers (an unmapped model name); every other failure is a
    [ValueError]. *)
Theorem init_settings_error_kinds : forall rt env s e s',
  init_settings rt env s = (Err e, s') ->
  (exists msg, e = ValueError msg) \/
  (exists k, e = KeyError k /\
     (env "MODEL_PROVIDER" = Some "anthropic" \/ env "MODEL_PROVIDER" = Some "gemini")).
Proof.
  intros rt env s e s' H. rewrite init_settings_unfold, print_diagnostics_state in H.
  destruct (dispatch_cases rt env (env "MODEL_PROVIDER"))
    as [[Hp Hd]|[[Hp Hd]|[[Hp Hd]|[[Hp Hd]|[[Hp Hd]|[_ Hd]]]]]];
    rewrite Hd in H; clear Hd;
    run_unfold; split_matches; eauto.
Qed.

Lemma init_settings_error_kinds_witness :
  (exists msg, KeyError (PyStr "all-MiniLM-L6-v2") = ValueError msg) \/
  (exists k, KeyError (PyStr "all-MiniLM-L6-v2") = KeyError k /\
     (env_gemini_bad_embed "MODEL_PROVIDER" = Some "anthropic" \/
      env_gemini_bad_embed "MODEL_PROVIDER" = Some "gemini")).
Proof.
  apply (init_settings_error_kinds example_runtime env_gemini_bad_embed init_state
           (KeyError (PyStr "all-MiniLM-L6-v2"))
           (snd (init_settings example_runtime env_gemini_bad_embed init_state))).
  vm_compute. reflexivity.
Defined.

(** X9.  Whatever the outcome, [init_settings] prints exactly two lines,
    the registry endpoint and then the provider ([None] when unset), and
    nothing else. *)
Theorem init_settings_output : forall rt env s,
  stdout (snd (init_settings rt env s)) =
  (stdout s ++ [py_str_opt (env "AZURE_CONTAINER_REGISTRY_ENDPOINT");
                py_str_opt (env "MODEL_PROVIDER")])%list.
Proof.
  intros rt env s. rewrite init_settings_unfold, print_diagnostics_state, dispatch_stdout.
  destruct (dispatch rt env (env "MODEL_PROVIDER") s) as [[[]|e] s1]; cbn [fst snd];
    [|reflexivity].
  unfold set_chunk_params, int_of_str, set_chunk_size, set_chunk_overlap,
    update, raise, bind, ret.
  destruct (py_int rt (getenv_or env "CHUNK_SIZE" "1024"));
    [destruct (py_int rt (getenv_or env "CHUNK_OVERLAP" "20"))|]; reflexivity.
Qed.

(** X10.  When [init_settings] raises, [Settings.chunk_overlap] is
    unchanged, and [Settings.chunk_size] is unchanged unless the failure is
    the [int()] of [CHUNK_OVERLAP] (that [ValueError] is what is raised), in
    which case it already holds [int(os.getenv("CHUNK_SIZE", "1024"))]. *)
Theorem init_settings_failure_chunks : forall rt env s e s',
  init_settings rt env s = (Err e, s') ->
  chunk_overlap (settings s') = chunk_overlap (settings s) /\
  (chunk_size (settings s') = chunk_size (settings s) \/
   exists cs msg,
     py_int rt (getenv_or env "CHUNK_SIZE" "1024") = Value cs /\
     chunk_size (settings s') = Some cs /\
     py_int rt (getenv_or env "CHUNK_OVERLAP" "20") = Invalid msg /\
     e = ValueError msg).
Proof.
  intros rt env s e s' H.
  rewrite init_settings_unfold, print_diagnostics_state, dispatch_stdout in H.
  pose proof (dispatch_keeps_chunks rt env (env "MODEL_PROVIDER") s) as [Hcs Hco].
  destruct (dispatch rt env (env "MODEL_PROVIDER") s) as [[[]|e'] s1]; cbn [fst snd] in *.
  - unfold set_chunk_params, int_of_str, set_chunk_size, set_chunk_overlap,
      update, raise, bind, ret in H.
    destruct (py_int rt (getenv_or env "CHUNK_SIZE" "1024")) eqn:E1;
      [destruct (py_int rt (getenv_or env "CHUNK_OVERLAP" "20")) eqn:E2|];
      try discriminate H; injection H as <- <-; cbn;
      (split; [auto | first [left; solve [auto] | right; do 2 eexists; repeat split]]).
  - injection H as <- <-. cbn. auto.
Qed.

Definition env_openai_bad_overlap : environ :=
  env_of [("MODEL_PROVIDER", "openai"); ("MODEL", "gpt-4o");
          ("EMBEDDING_MODEL", "text-embedding-3-small"); ("CHUNK_OVERLAP", "2O")].

Lemma init_settings_failure_chunks_witness :
  chunk_overlap (settings (snd (init_settings example_runtime env_openai_bad_overlap init_state)))
    = chunk_overlap (settings init_state) /\
  (chunk_size (settings (snd (init_settings example_runtime env_openai_bad_overlap init_state)))
     = chunk_size (settings init_state) \/
   exists cs msg,
     py_int example_runtime (getenv_or env_openai_bad_overlap "CHUNK_SIZE" "1024") = Value cs /\
     chunk_size (settings (snd (init_settings example_runtime env_openai_bad_overlap init_state)))
       = Some cs /\
     py_int example_runtime (getenv_or env_openai_bad_overlap "CHUNK_OVERLAP" "20")
       = Invalid msg /\
     (match fst (init_settings example_runtime env_openai_bad_overlap init_state) with
      | Err e => e | Ok _ => KeyError PyNone end) = ValueError msg).
Proof.
  apply (init_settings_failure_chunks example_runtime env_openai_bad_overlap init_state
           (match fst (init_settings example_runtime env_openai_bad_overlap init_state) with
            | Err e => e | Ok _ => KeyError PyNone end)
           (snd (init_settings example_runtime env_openai_bad_overlap init_state))).
  vm_compute. reflexivity.
Defined.

(** X11.  Only the [azure-openai] provider calls
    [get_bearer_token_provider], exactly once, whatever the outcome; for
    every other value of [MODEL_PROVIDER] no token provider callback is
    obtained (the count of callbacks is left as it was). *)
Theorem init_settings_oid_allocation : forall rt env s,
  next_oid (snd (init_settings rt env s)) =
  (next_oid s + if is_tag (env "MODEL_PROVIDER") "azure-openai" then 1 else 0)%nat.
Proof.
  intros rt env s. rewrite init_settings_unfold, print_diagnostics_state.
  destruct (is_tag (env "MODEL_PROVIDER") "azure-openai") eqn:Ht;
  destruct (dispatch_cases rt env (env "MODEL_PROVIDER"))
    as [[Hp Hd]|[[Hp Hd]|[[Hp Hd]|[[Hp Hd]|[[Hp Hd]|[Hn Hd]]]]]];
    rewrite Hd; clear Hd;
    try (rewrite Hp in Ht; vm_compute in Ht; discriminate Ht);
    try (exfalso; unfold is_tag in Ht;
         destruct (env "MODEL_PROVIDER") as [q|]; [|discriminate Ht];
         apply String.eqb_eq in Ht; subst q;
         apply (Hn _ eq_refl); simpl; tauto);
    clear Ht; try clear Hp; try clear Hn;
    run_unfold; split_matches; cbn; lia.
Qed.

(** X12.  After a normal return of [init_settings], [Settings.llm] and
    [Settings.embed_model] are instances of the two classes that the
    provider named by [MODEL_PROVIDER] uses (for [anthropic], a local
    Hugging Face embedding). *)
Theorem init_settings_client_classes : forall rt env s s',
  init_settings rt env s = (Ok tt, s') ->
  exists p cl ce kl ke,
    env "MODEL_PROVIDER" = Some p /\ assoc p provider_clients = Some (cl, ce) /\
    llm (settings s') = Some (PyInstance cl kl) /\
    embed_model (settings s') = Some (PyInstance ce ke).
Proof.
  intros rt env s s' H. rewrite init_settings_unfold, print_diagnostics_state in H.
  destruct (dispatch_cases rt env (env "MODEL_PROVIDER"))
    as [[Hp Hd]|[[Hp Hd]|[[Hp Hd]|[[Hp Hd]|[[Hp Hd]|[_ Hd]]]]]];
    rewrite Hd in H; clear Hd;
    run_unfold; split_matches;
    (do 5 eexists; split; [eassumption | split; [reflexivity | split; reflexivity]]).
Qed.

Lemma init_settings_client_classes_witness :
  exists p cl ce kl ke,
    env_ollama_basic "MODEL_PROVIDER" = Some p /\ assoc p provider_clients = Some (cl, ce) /\
    llm (settings (snd (init_settings example_runtime env_ollama_basic init_state)))
      = Some (PyInstance cl kl) /\
    embed_model (settings (snd (init_settings example_runtime env_ollama_basic init_state))) =
      Some (PyInstance ce ke).
Proof.
  apply (init_settings_client_classes example_runtime env_ollama_basic init_state
           (snd (init_settings example_runtime env_ollama_basic init_state))).
  vm_compute. reflexivity.
Defined.
